(** * learn-react-redux: the reducers, the store and the presenter of src/index.js

    The program is one file, [src/index.js].  It declares three field
    reducers, combines them with redux's [combineReducers], builds a store
    with redux's [createStore], and connects a presentational component to
    it.  This development embeds those definitions and proves the properties
    of the state-reduction contract. *)

From Stdlib Require Import ZArith Lia Bool String List Floats.
Import ListNotations.

Local Open Scope string_scope.
Local Open Scope Z_scope.

(** ** JavaScript numbers that hold an integer

    [renderCount] is a JavaScript number, that is an IEEE 754 binary64 value.
    The counter only ever holds integers, so a number is modelled by the
    integer it denotes; the integers that are numbers are those with at most
    53 significant bits and magnitude below [2^1024].  Addition is exact
    integer addition followed by rounding to the nearest such integer, ties
    going to the even significand. *)
Module Number.

Definition number := Z.

(** Exponent of the unit in the last place of an integer of magnitude [a]:
    the significand keeps the 53 leading bits. *)
Definition ulp_exp (a : Z) : Z := Z.log2 a - 52.

(** Round to nearest, ties to even, on a magnitude [a]. *)
Definition round_magnitude (a : Z) : Z :=
  let e := ulp_exp a in
  if e <=? 0 then a
  else
    let q := a / 2 ^ e in
    let r := a mod 2 ^ e in
    let h := 2 ^ (e - 1) in
    let q' := if (h <? r) || ((r =? h) && Z.odd q) then q + 1 else q in
    q' * 2 ^ e.

Definition round_double (m : Z) : Z := Z.sgn m * round_magnitude (Z.abs m).

(** The integers a number can hold. *)
Definition is_double (n : Z) : bool :=
  (round_double n =? n) && (Z.abs n <? 2 ^ 1024).

(** [x + 1] on numbers. *)
Definition add_one (n : number) : number := round_double (n + 1).

(** The same sum computed by the binary64 addition of the kernel's
    primitive floats, for comparison with [add_one] on samples. *)
Definition to_float (n : Z) : float :=
  SF2Prim (binary_normalize prec emax n 0 false).

Definition agrees_with_binary64 (n : Z) : bool :=
  PrimFloat.eqb (to_float n + 1)%float (to_float (add_one n)).

(** Sample numbers around the places where the spacing of numbers changes:
    the first and last significands of a binade, for small, middle and the
    largest exponents, both signs, and the small integers. *)
Definition boundary_samples : list Z :=
  flat_map
    (fun e : nat =>
       flat_map
         (fun q : Z => [q * 2 ^ Z.of_nat e; - (q * 2 ^ Z.of_nat e)])
         [2 ^ 52; 2 ^ 52 + 1; 2 ^ 52 + 2; 2 ^ 53 - 2; 2 ^ 53 - 1])
    (seq 0 40 ++ [100; 500; 969; 970; 971]%nat)
  ++ map Z.of_nat (seq 0 64) ++ map (fun k => - Z.of_nat k) (seq 0 64).

End Number.

Import Number.

(** ** Values

    The primitive values a state field or an action payload can hold.  A
    number is an integer-valued one (see [Number]); objects, functions and
    symbols do not occur in the program's state. *)
Inductive value : Type :=
| VUndefined
| VNull
| VBool (b : bool)
| VNum (n : number)
| VStr (s : string).

(** [x === y] on these values. *)
Definition strict_eq (x y : value) : bool :=
  match x, y with
  | VUndefined, VUndefined => true
  | VNull, VNull => true
  | VBool a, VBool b => Bool.eqb a b
  | VNum a, VNum b => a =? b
  | VStr a, VStr b => String.eqb a b
  | _, _ => false
  end.

(** Truthiness, as the conditional operator [c ? a : b] tests it. *)
Definition ToBoolean (v : value) : bool :=
  match v with
  | VUndefined | VNull => false
  | VBool b => b
  | VNum n => negb (n =? 0)
  | VStr s => negb (String.eqb s "")
  end.

(** A default parameter [(x = d) => ...] replaces [undefined], and only
    [undefined], by [d]. *)
Definition default_param (d x : value) : value :=
  match x with VUndefined => d | _ => x end.

(** ** Actions: [{ type, data }].  A field the object does not have reads as
    [undefined]. *)
Module Action.
Record t : Type := make { type : value; data : value }.
End Action.
Abbreviation Action := Action.t.

Definition CHANGE_DATA : string := "CHANGE_DATA".

(** [switch (action.type) { case 'CHANGE_DATA': ... default: ... }] compares
    with [===]. *)
Definition is_CHANGE_DATA (a : Action) : bool :=
  strict_eq (Action.type a) (VStr CHANGE_DATA).

(** ** The field reducers (index.js, lines 44-73) *)

Definition dataReducer (state : value) (action : Action) : value :=
  let state := default_param (VStr "") state in
  if is_CHANGE_DATA action then Action.data action else state.

Definition successReducer (state : value) (action : Action) : value :=
  let state := default_param (VBool false) state in
  if is_CHANGE_DATA action then VBool true else state.

(** The counter is a number or [undefined] ([None]).  [++state] rebinds the
    reducer's own parameter to [state + 1] and evaluates to the new binding,
    whereas [state++] would evaluate to the old one; numbers are passed by
    value, so the caller's number is not touched. *)
Definition pre_increment (state : number) : number * number :=
  let state' := add_one state in (state', state').

Definition post_increment (state : number) : number * number :=
  (add_one state, state).

Definition countReducer (state : option number) (action : Action)
  : option number :=
  let state := match state with None => 0 | Some n => n end in
  if is_CHANGE_DATA action then Some (snd (pre_increment state))
  else Some state.

(** ** The state object

    The object the root reducer works on has the keys [data], [success] and
    [renderCount]; a key that is missing reads as [undefined].  A state in
    the sense of the data model has all three defined. *)
Record StateObject : Type := mkState {
  data : value;
  success : value;
  renderCount : option number
}.

Definition empty_object : StateObject :=
  {| data := VUndefined; success := VUndefined; renderCount := None |}.

Definition is_undefined (v : value) : bool :=
  match v with VUndefined => true | _ => false end.

Definition is_state (s : StateObject) : bool :=
  negb (is_undefined (data s)) && negb (is_undefined (success s))
  && match renderCount s with Some _ => true | None => false end.

Definition count_strict_eq (x y : option number) : bool :=
  match x, y with
  | None, None => true
  | Some a, Some b => a =? b
  | _, _ => false
  end.

(** ** Errors and results *)
Inductive error : Type :=
| ReducerReturnedUndefined (key : string)
| UndefinedActionType.

Inductive result (A : Type) : Type :=
| Return (a : A)
| Throw (e : error).
Arguments Return {A} a.
Arguments Throw {A} e.

Definition bind {A B} (r : result A) (k : A -> result B) : result B :=
  match r with Return a => k a | Throw e => Throw e end.

Notation "x <- r ;; k" := (bind r (fun x => k))
  (at level 61, r at next level, right associativity).

(** ** redux: [combineReducers] and [createStore]

    Both are imported from the redux package (index.js, line 8) and are not
    part of the repository's sources. *)

Record Reducers : Type := mkReducers {
  data_reducer : value -> Action -> value;
  success_reducer : value -> Action -> value;
  renderCount_reducer : option number -> Action -> option number
}.

(** [hasChanged]: some key's next state is not [===] to its previous one. *)
Definition hasChanged (prev next : StateObject) : bool :=
  negb (strict_eq (data next) (data prev))
  || negb (strict_eq (success next) (success prev))
  || negb (count_strict_eq (renderCount next) (renderCount prev)).

(** Modelled from the spec: the reducer combinator as section 4.2 of the
    specification words it.  For every key, in the order of the mapping, the
    field reducer is invoked with [state[key]] and the action, and the
    results are assembled into a new record; a missing state is the empty
    object, so that each field reducer sees [undefined] and supplies its own
    default. *)
Definition assemble (reducers : Reducers)
  (state : option StateObject) (action : Action) : StateObject :=
  let state := match state with Some s => s | None => empty_object end in
  {| data := data_reducer reducers (data state) action;
     success := success_reducer reducers (success state) action;
     renderCount := renderCount_reducer reducers (renderCount state) action |}.

(** Modelled from the spec: redux's [combineReducers], which index.js imports
    at line 8 and calls at line 76; the package is not under src/.  It is the
    assembly of section 4.2, key by key, with the two things the library adds
    to it: a field reducer's [undefined] result is refused with an error that
    names the key (the rule behind the comments at index.js lines 58 and 64:
    a reducer must yield a defined state for every action), and when no key
    has changed the previous object itself is handed back. *)
Definition combineReducers (reducers : Reducers)
  (state : option StateObject) (action : Action) : result StateObject :=
  let state := match state with Some s => s | None => empty_object end in
  let nextData := data_reducer reducers (data state) action in
  if is_undefined nextData then Throw (ReducerReturnedUndefined "data")
  else
    let nextSuccess := success_reducer reducers (success state) action in
    if is_undefined nextSuccess
    then Throw (ReducerReturnedUndefined "success")
    else
      match renderCount_reducer reducers (renderCount state) action with
      | None => Throw (ReducerReturnedUndefined "renderCount")
      | Some nextCount =>
          let nextState :=
            {| data := nextData; success := nextSuccess;
               renderCount := Some nextCount |} in
          Return (if hasChanged state nextState then nextState else state)
      end.

(** index.js, lines 76-80: the mapping from keys to field reducers, and the
    root reducer made of it. *)
Definition fieldReducers : Reducers :=
  {| data_reducer := dataReducer;
     success_reducer := successReducer;
     renderCount_reducer := countReducer |}.

Definition reduxApp : option StateObject -> Action -> result StateObject :=
  combineReducers fieldReducers.

(** The store holds the current state; before the initial dispatch this is
    the preloaded state, possibly absent. *)
Record Store : Type := mkStore { currentState : option StateObject }.

Definition getState (store : Store) : option StateObject :=
  currentState store.

(** Modelled from the spec: redux's [dispatch] (section 4.3):
    [nextState = rootReducer(currentState, action)] replaces the current
    state.  An action whose [type] is [undefined] is refused, and an error
    raised by the reducer leaves the store as it was. *)
Definition dispatch
  (reducer : option StateObject -> Action -> result StateObject)
  (action : Action) (store : Store) : result Store :=
  if is_undefined (Action.type action) then Throw UndefinedActionType
  else
    next <- reducer (currentState store) action ;;
    Return {| currentState := Some next |}.

(** The action of the initial dispatch: its type is the library's private
    ["@@redux/INIT"], followed in later versions by a random suffix; it has
    no payload. *)
Definition INIT (suffix : string) : Action :=
  Action.make (VStr ("@@redux/INIT" ++ suffix)) VUndefined.

(** Modelled from the spec: redux's [createStore(reducer, preloadedState)]
    (section 4.3): the store starts from the preloaded state and dispatches
    the initial action once. *)
Definition createStore
  (reducer : option StateObject -> Action -> result StateObject)
  (preloadedState : option StateObject) (suffix : string) : result Store :=
  dispatch reducer (INIT suffix) {| currentState := preloadedState |}.

(** index.js, lines 33-36: no [data] key. *)
Definition initialState : StateObject :=
  {| data := VUndefined; success := VBool false; renderCount := Some 0 |}.

(** index.js, lines 90-95. *)
Definition configureStore (suffix : string) : result Store :=
  createStore reduxApp (Some initialState) suffix.

Definition appStore (suffix : string) : result Store := configureStore suffix.

(** A dispatch made from an event handler: an error propagates to the
    handler's caller and the store keeps its state. *)
Definition dispatched
  (reducer : option StateObject -> Action -> result StateObject)
  (action : Action) (store : Store) : Store :=
  match dispatch reducer action store with
  | Return store' => store'
  | Throw _ => store
  end.

Definition dispatch_all
  (reducer : option StateObject -> Action -> result StateObject)
  (actions : list Action) (store : Store) : Store :=
  fold_left (fun st a => dispatched reducer a st) actions store.

(** ** The view: [Presenter], [mapStateToProps], [mapDispatchToProps]

    A call with an effect on the outside world (a dispatch) is a function on
    the world [W] it acts on. *)

(** The world that records the dispatches made, oldest first. *)
Definition record_dispatch (action : Action) (log : list Action)
  : list Action :=
  log ++ [action].

Module StateProps.
Record t : Type := make { data : value; success : value; count : option number }.
End StateProps.

Module DispatchProps.
Record t (W : Type) : Type := make { callbackFunc : W -> W }.
Arguments make {W} callbackFunc.
Arguments callbackFunc {W} t.
End DispatchProps.

Module Props.
Record t (W : Type) : Type := make {
  success : value;
  data : value;
  count : option number;
  callbackFunc : W -> W
}.
Arguments make {W} success data count callbackFunc.
Arguments success {W} t.
Arguments data {W} t.
Arguments count {W} t.
Arguments callbackFunc {W} t.
End Props.

(** The tree a component returns: elements with their attributes, and
    [{expression}] children. *)
#[warnings="-register-all"]
Inductive element (W : Type) : Type :=
| Elem (tag : string) (className : option string) (href : option string)
       (onClick : option (W -> W)) (children : list (element W))
| Expr (v : value).
Arguments Elem {W} tag className href onClick children.
Arguments Expr {W} v.

Definition count_value (c : option number) : value :=
  match c with Some n => VNum n | None => VUndefined end.

Definition no_data_message : string := "We don't have data to show.".

(** index.js, line 104. *)
Definition message {W} (props : Props.t W) : value :=
  if ToBoolean (Props.success props) then Props.data props
  else VStr no_data_message.

(** index.js, lines 102-114: what [console.log] receives, and the tree. *)
Definition Presenter {W} (props : Props.t W)
  : (string * StateProps.t) * element W :=
  let logged :=
    ("when I rendered state was: ",
     StateProps.make (Props.data props) (Props.success props)
                     (Props.count props)) in
  (logged,
   Elem "div" (Some "presentational") None None
     [ Elem "a" None (Some "#") (Some (fun w => Props.callbackFunc props w))
         [Expr (VStr "clickable text")];
       Elem "hr" None None None [];
       Elem "span" None None None [Expr (message props)];
       Elem "hr" None None None [];
       Elem "span" None None None [Expr (count_value (Props.count props))] ]).

(** index.js, lines 124-128. *)
Definition mapStateToProps (state : StateObject) : StateProps.t :=
  StateProps.make (data state) (success state) (renderCount state).

Definition presenter_action : Action :=
  Action.make (VStr CHANGE_DATA) (VStr "the Presenter changed me").

(** index.js, lines 133-140. *)
Definition mapDispatchToProps {W} (dispatch : Action -> W -> W)
  : DispatchProps.t W :=
  DispatchProps.make (fun w => dispatch presenter_action w).

(** Modelled from the spec: react-redux's [connect] (section 4.4): the
    wrapped component receives [mapStateToProps(store.getState())] merged
    with [mapDispatchToProps(store.dispatch)]. *)
Definition connect {W}
  (mapState : StateObject -> StateProps.t)
  (mapDispatch : (Action -> W -> W) -> DispatchProps.t W)
  (component : Props.t W -> (string * StateProps.t) * element W)
  (state : StateObject) (dispatch : Action -> W -> W)
  : (string * StateProps.t) * element W :=
  let sp := mapState state in
  let dp := mapDispatch dispatch in
  component
    (Props.make (StateProps.success sp) (StateProps.data sp)
                (StateProps.count sp) (DispatchProps.callbackFunc dp)).

(** index.js, lines 153-156. *)
Definition Container {W} (state : StateObject) (dispatch : Action -> W -> W)
  : (string * StateProps.t) * element W :=
  connect mapStateToProps mapDispatchToProps Presenter state dispatch.

(** The click handlers of a tree, in document order. *)
Fixpoint onClick_handlers {W} (e : element W) : list (W -> W) :=
  match e with
  | Expr _ => []
  | Elem _ _ _ h children =>
      (match h with Some f => [f] | None => [] end)
      ++ flat_map onClick_handlers children
  end.

(** The text a tree displays inside its [span] elements, in order. *)
Fixpoint span_contents {W} (e : element W) : list value :=
  match e with
  | Expr _ => []
  | Elem tag _ _ _ children =>
      if String.eqb tag "span"
      then flat_map (fun c => match c with Expr v => [v] | _ => [] end) children
      else flat_map span_contents children
  end.

(** Activating every clickable element of a tree once, in order. *)
Definition click_all {W} (e : element W) (w : W) : W :=
  fold_left (fun w f => f w) (onClick_handlers e) w.

(** ** Sequences of dispatches and clicks *)

(** The actions that reach the [case 'CHANGE_DATA'] of the reducers with a
    payload: their type is ["CHANGE_DATA"] and their [data] is not
    [undefined]. *)
Definition carries_data (a : Action) : bool :=
  is_CHANGE_DATA a && negb (is_undefined (Action.data a)).

(** One turn of the user interface: the container renders the presenter from
    the store's state with the store's dispatch, and the user activates the
    clickable element of that tree. *)
Definition click (store : Store) : Store :=
  match getState store with
  | Some s => click_all (snd (Container s (dispatched reduxApp))) store
  | None => store
  end.

(** * Properties *)

(** ** Rounding and [add_one] *)

Lemma round_magnitude_small (a : Z) : 0 <= a < 2 ^ 53 -> round_magnitude a = a.
Proof.
  intros [H0 H1]. unfold round_magnitude, ulp_exp.
  destruct (Z.eq_dec a 0) as [->|Hne]; [reflexivity|].
  assert (Z.log2 a < 53) by (apply Z.log2_lt_pow2; lia).
  destruct (Z.leb_spec (Z.log2 a - 52) 0); [reflexivity | lia].
Qed.

(** The decomposition the rounding of a large magnitude works on. *)
Lemma round_magnitude_large (a : Z) :
  2 ^ 53 <= a ->
  let e := ulp_exp a in
  let P := 2 ^ e in
  let h := 2 ^ (e - 1) in
  let q := a / P in
  let r := a mod P in
  1 <= e /\ P = 2 * h /\ 1 <= h /\ a = P * q + r /\ 0 <= r < P /\
  2 ^ 52 <= q < 2 ^ 53 /\
  round_magnitude a =
    (if (h <? r) || ((r =? h) && Z.odd q) then q + 1 else q) * P.
Proof.
  intros Ha e P h q r.
  assert (Hpos : 0 < a) by lia.
  assert (Hl : 53 <= Z.log2 a) by (apply Z.log2_le_pow2; lia).
  assert (He : 1 <= e) by (unfold e, ulp_exp; lia).
  assert (Hh : 1 <= h) by (unfold h; apply (Z.pow_le_mono_r 2 0 (e - 1)); lia).
  assert (HP : P = 2 * h).
  { unfold P, h. replace e with (Z.succ (e - 1)) at 1 by lia.
    rewrite Z.pow_succ_r by lia. reflexivity. }
  pose proof (Z.log2_spec a Hpos) as [Hlo Hhi].
  assert (E1 : 2 ^ Z.log2 a = 2 ^ 52 * P).
  { unfold P. rewrite <- Z.pow_add_r by lia. f_equal. unfold e, ulp_exp. lia. }
  assert (E2 : 2 ^ Z.succ (Z.log2 a) = 2 ^ 53 * P).
  { unfold P. rewrite <- Z.pow_add_r by lia. f_equal. unfold e, ulp_exp. lia. }
  rewrite E1 in Hlo. rewrite E2 in Hhi.
  assert (Hdiv : a = P * q + r) by (apply Z.div_mod; lia).
  assert (Hr : 0 <= r < P) by (apply Z.mod_pos_bound; lia).
  repeat split; try lia; try nia.
  unfold round_magnitude. fold e.
  destruct (Z.leb_spec e 0); [lia|]. reflexivity.
Qed.

Lemma round_magnitude_multiple (k e : Z) :
  1 <= e -> 2 ^ 52 <= k < 2 ^ 53 -> round_magnitude (k * 2 ^ e) = k * 2 ^ e.
Proof.
  intros He Hk.
  assert (HP : 0 < 2 ^ e) by (apply Z.pow_pos_nonneg; lia).
  assert (Hl : Z.log2 (k * 2 ^ e) = e + Z.log2 k)
    by (apply Z.log2_mul_pow2; lia).
  assert (Hk2 : Z.log2 k = 52) by (apply Z.log2_unique; [lia | change (Z.succ 52) with 53; lia]).
  unfold round_magnitude, ulp_exp. rewrite Hl, Hk2.
  replace (e + 52 - 52) with e by lia.
  destruct (Z.leb_spec e 0); [lia|].
  rewrite Z.div_mul, Z.mod_mul by lia.
  assert (Hh : 0 < 2 ^ (e - 1)) by (apply Z.pow_pos_nonneg; lia).
  destruct (Z.ltb_spec (2 ^ (e - 1)) 0); [lia|].
  destruct (Z.eqb_spec 0 (2 ^ (e - 1))); [lia|]. reflexivity.
Qed.

Lemma round_magnitude_idempotent (a : Z) :
  0 <= a -> round_magnitude (round_magnitude a) = round_magnitude a.
Proof.
  intros Ha. destruct (Z.lt_ge_cases a (2 ^ 53)) as [Hs|Hl].
  - rewrite (round_magnitude_small a) by lia. apply round_magnitude_small; lia.
  - destruct (round_magnitude_large a Hl)
      as (He & HP & Hh & Hdiv & Hr & Hq & ->).
    set (e := ulp_exp a) in *. set (q := a / 2 ^ e) in *.
    match goal with
    | |- context [if ?c then q + 1 else q] =>
        set (q' := if c then q + 1 else q);
        assert (Hq' : 2 ^ 52 <= q' <= 2 ^ 53) by (unfold q'; destruct c; lia)
    end.
    destruct (Z.eq_dec q' (2 ^ 53)) as [->|Hne].
    + replace (2 ^ 53 * 2 ^ e) with (2 ^ 52 * 2 ^ (e + 1)).
      * apply round_magnitude_multiple; lia.
      * rewrite Z.pow_add_r by lia. change (2 ^ 53) with (2 ^ 52 * 2 ^ 1). ring.
    + apply round_magnitude_multiple; lia.
Qed.

Lemma round_double_idempotent (m : Z) :
  round_double (round_double m) = round_double m.
Proof.
  unfold round_double.
  assert (H0 : forall a, 0 <= a -> 0 <= round_magnitude a).
  { intros a Ha. destruct (Z.lt_ge_cases a (2 ^ 53)) as [Hs|Hl].
    - rewrite round_magnitude_small; lia.
    - destruct (round_magnitude_large a Hl)
        as (He & HP & Hh & Hdiv & Hr & Hq & ->).
      destruct (_ || _); nia. }
  assert (H1 : forall a, 0 < a -> 0 < round_magnitude a).
  { intros a Ha. destruct (Z.lt_ge_cases a (2 ^ 53)) as [Hs|Hl].
    - rewrite round_magnitude_small; lia.
    - destruct (round_magnitude_large a Hl)
        as (He & HP & Hh & Hdiv & Hr & Hq & ->).
      destruct (_ || _); nia. }
  destruct (Z.lt_trichotomy m 0) as [Hm|[->|Hm]].
  - rewrite (Z.sgn_neg m), (Z.abs_neq m) by lia.
    specialize (H1 (- m) ltac:(lia)).
    rewrite Z.sgn_neg, Z.abs_neq by lia.
    assert (E : forall x, - (-1 * x) = x) by (intros; lia). rewrite E.
    rewrite round_magnitude_idempotent by lia. reflexivity.
  - reflexivity.
  - rewrite (Z.sgn_pos m), (Z.abs_eq m) by lia.
    specialize (H1 m Hm).
    rewrite Z.sgn_pos, Z.abs_eq by lia.
    rewrite !Z.mul_1_l. apply round_magnitude_idempotent; lia.
Qed.

Lemma round_double_safe (m : Z) : Z.abs m <= 2 ^ 53 -> round_double m = m.
Proof.
  intros Hm. unfold round_double.
  destruct (Z.eq_dec (Z.abs m) (2 ^ 53)) as [E|N].
  - rewrite E. change (round_magnitude (2 ^ 53)) with (2 ^ 53).
    rewrite <- E. rewrite Z.mul_comm. apply Z.abs_sgn.
  - rewrite round_magnitude_small by lia. rewrite Z.mul_comm. apply Z.abs_sgn.
Qed.

(** A number of magnitude at least [2^53] is a multiple of its unit in the
    last place. *)
Lemma double_magnitude_multiple (a : Z) :
  2 ^ 53 <= a -> round_magnitude a = a ->
  exists k, a = k * 2 ^ ulp_exp a.
Proof.
  intros Ha Hfix.
  destruct (round_magnitude_large a Ha) as (_ & _ & _ & _ & _ & _ & E).
  rewrite Hfix in E. eexists. exact E.
Qed.

Lemma is_double_magnitude (n : Z) :
  is_double n = true -> round_magnitude (Z.abs n) = Z.abs n.
Proof.
  unfold is_double, round_double. intros H.
  apply andb_true_iff in H as [H _]. apply Z.eqb_eq in H.
  destruct (Z.lt_trichotomy n 0) as [Hn|[->|Hn]].
  - rewrite Z.sgn_neg in H by lia. lia.
  - reflexivity.
  - rewrite Z.sgn_pos in H by lia. lia.
Qed.

(** What [n + 1] rounds to, for a number [n]. *)
Lemma add_one_cases (n : Z) :
  is_double n = true ->
  (Z.abs (n + 1) <= 2 ^ 53 /\ add_one n = n + 1)
  \/ add_one n = n
  \/ (2 ^ 53 <= Z.abs n <= 2 ^ 54 /\ add_one n = n + 2).
Proof.
  intros Hd. pose proof (is_double_magnitude n Hd) as Hfix.
  unfold add_one.
  destruct (Z.le_gt_cases (Z.abs (n + 1)) (2 ^ 53)) as [Hs|Hl].
  { left. split; [exact Hs | now apply round_double_safe]. }
  right. unfold round_double.
  destruct (Z.lt_trichotomy (n + 1) 0) as [Hm|[Hm|Hm]]; [| lia |].
  - (* n + 1 < 0 *)
    rewrite Z.sgn_neg, (Z.abs_neq (n + 1)) by lia.
    rewrite Z.abs_neq in Hfix by lia.
    set (a := - (n + 1)) in *.
    assert (Ha : 2 ^ 53 <= a) by lia.
    replace (- n) with (a + 1) in Hfix by (unfold a; lia).
    destruct (double_magnitude_multiple (a + 1) ltac:(lia) Hfix) as [k Hk].
    destruct (round_magnitude_large a Ha)
      as (He & HP & Hh & Hdiv & Hr & Hq & ->).
    set (e := ulp_exp a) in *. set (P := 2 ^ e) in *.
    set (h := 2 ^ (e - 1)) in *. set (q := a / P) in *. set (r := a mod P) in *.
    assert (Hle : e <= ulp_exp (a + 1)).
    { unfold e, ulp_exp. pose proof (Z.log2_le_mono a (a + 1)). lia. }
    assert (HK : exists K, a + 1 = K * P).
    { exists (k * 2 ^ (ulp_exp (a + 1) - e)). unfold P.
      rewrite <- Z.mul_assoc, <- Z.pow_add_r by lia.
      replace (ulp_exp (a + 1) - e + e) with (ulp_exp (a + 1)) by lia.
      exact Hk. }
    destruct HK as [K HK].
    assert (Er : r = P - 1).
    { assert (E1 : P * (K - q) = r + 1) by lia.
      assert (0 < K - q) by nia. assert (K - q < 2) by nia.
      replace (K - q) with 1 in E1 by lia. lia. }
    destruct (Z.eq_dec h 1) as [Eh|Nh].
    + assert (EP : P = 2) by lia. rewrite Er, EP, Eh. change (2 - 1) with 1.
      change (1 <? 1) with false. change (1 =? 1) with true. cbn [orb andb].
      destruct (Z.odd q) eqn:Eo.
      * left. lia.
      * right. split; lia.
    + left. destruct (Z.ltb_spec h r); [cbn [orb]; lia | lia].
  - (* 0 < n + 1 *)
    rewrite Z.sgn_pos, (Z.abs_eq (n + 1)) by lia.
    rewrite Z.abs_eq in Hfix by lia.
    assert (Hn : 2 ^ 53 <= n) by lia.
    destruct (double_magnitude_multiple n Hn Hfix) as [k Hk].
    destruct (round_magnitude_large n Hn) as (He0 & HP0 & Hh0 & _).
    assert (Hlog : Z.log2 (n + 1) = Z.log2 n).
    { rewrite Z.add_1_r. destruct (Z.log2_succ_or n) as [Hs|Hs]; [|exact Hs].
      exfalso. apply Z.log2_eq_succ_is_pow2 in Hs as [b Hb].
      assert (Hb1 : 1 <= b).
      { destruct (Z.le_gt_cases 1 b) as [?|Hb0]; [assumption|].
        assert (2 ^ b <= 2 ^ 0).
        { destruct (Z.lt_ge_cases b 0).
          - rewrite Z.pow_neg_r by lia. simpl. lia.
          - apply Z.pow_le_mono_r; lia. }
        simpl in *. lia. }
      replace b with (Z.succ (b - 1)) in Hb by lia.
      rewrite Z.pow_succ_r in Hb by lia. lia. }
    destruct (round_magnitude_large (n + 1) ltac:(lia))
      as (He & HP & Hh & Hdiv & Hr & Hq & ->).
    assert (Ee : ulp_exp (n + 1) = ulp_exp n) by (unfold ulp_exp; lia).
    rewrite Ee in *.
    set (e := ulp_exp n) in *. set (P := 2 ^ e) in *.
    set (h := 2 ^ (e - 1)) in *.
    set (q := (n + 1) / P) in *. set (r := (n + 1) mod P) in *.
    assert (Er : r = 1).
    { fold e in Hk. fold P in Hk.
      assert (E1 : P * (k - q) = r - 1) by lia.
      assert (-1 < k - q) by nia. assert (k - q < 1) by nia.
      replace (k - q) with 0 in E1 by lia. lia. }
    rewrite Er.
    destruct (Z.ltb_spec h 1); [lia|]. cbn [orb].
    destruct (Z.eqb_spec 1 h) as [Eh|Nh]; cbn [andb].
    + destruct (Z.odd q).
      * right. split; lia.
      * left. lia.
    + left. lia.
Qed.

Lemma add_one_exact (n : Z) :
  - 2 ^ 53 <= n < 2 ^ 53 -> add_one n = n + 1.
Proof. intros H. apply round_double_safe. lia. Qed.

Lemma add_one_nondecreasing (n : Z) : is_double n = true -> n <= add_one n.
Proof. intros H. destruct (add_one_cases n H) as [[_ E]|[E|[_ E]]]; lia. Qed.

Lemma add_one_is_double (n : Z) :
  is_double n = true -> is_double (add_one n) = true.
Proof.
  intros H. unfold is_double. apply andb_true_iff. split.
  - apply Z.eqb_eq. apply round_double_idempotent.
  - apply Z.ltb_lt.
    assert (Hb : Z.abs n < 2 ^ 1024).
    { unfold is_double in H. apply andb_true_iff in H as [_ H].
      now apply Z.ltb_lt in H. }
    assert (2 ^ 55 < 2 ^ 1024) by (apply Z.pow_lt_mono_r; lia).
    destruct (add_one_cases n H) as [[Hs E]|[E|[Hs E]]]; rewrite E; lia.
Qed.

(** On the samples, each sample is a number, [add_one] of it is a number, and
    it is the binary64 sum [n + 1]. *)
Example add_one_agrees_on_samples :
  forallb
    (fun n => is_double n && is_double (add_one n) && agrees_with_binary64 n)
    boundary_samples
  = true.
Proof. vm_compute. reflexivity. Qed.

(** ** Strict equality *)

Lemma strict_eq_refl (v : value) : strict_eq v v = true.
Proof.
  destruct v as [| |b|n|s]; simpl; trivial.
  - now destruct b.
  - apply Z.eqb_refl.
  - apply String.eqb_refl.
Qed.

Lemma strict_eq_true (x y : value) : strict_eq x y = true -> x = y.
Proof.
  destruct x as [| |a|a|a], y as [| |b|b|b]; simpl; try discriminate; trivial.
  - intros H. apply Bool.eqb_prop in H. now subst.
  - intros H. apply Z.eqb_eq in H. now subst.
  - intros H. apply String.eqb_eq in H. now subst.
Qed.

Lemma count_strict_eq_true (x y : option number) :
  count_strict_eq x y = true -> x = y.
Proof.
  destruct x as [a|], y as [b|]; simpl; try discriminate; trivial.
  intros H. apply Z.eqb_eq in H. now subst.
Qed.

(** When no key has changed, the previous object and the assembled one hold
    the same fields, so the object handed back always has the assembled
    fields. *)
Lemma hasChanged_false (prev next : StateObject) :
  hasChanged prev next = false -> next = prev.
Proof.
  unfold hasChanged. intros H.
  apply orb_false_iff in H as [H Hc]. apply orb_false_iff in H as [Hd Hs].
  apply negb_false_iff in Hd, Hs, Hc.
  apply strict_eq_true in Hd, Hs. apply count_strict_eq_true in Hc.
  destruct prev, next; simpl in *. congruence.
Qed.

Lemma hasChanged_same (s : StateObject) : hasChanged s s = false.
Proof.
  unfold hasChanged. rewrite !strict_eq_refl.
  destruct (renderCount s); simpl; [now rewrite Z.eqb_refl | reflexivity].
Qed.

(** ** The action type test *)

Lemma is_CHANGE_DATA_true (a : Action) :
  is_CHANGE_DATA a = true <-> Action.type a = VStr CHANGE_DATA.
Proof.
  unfold is_CHANGE_DATA. split.
  - apply strict_eq_true.
  - intros ->. apply strict_eq_refl.
Qed.

Lemma is_CHANGE_DATA_false (a : Action) :
  is_CHANGE_DATA a = false <-> Action.type a <> VStr CHANGE_DATA.
Proof.
  rewrite <- is_CHANGE_DATA_true. destruct (is_CHANGE_DATA a); split;
    congruence.
Qed.

Lemma INIT_is_unknown (suffix : string) : is_CHANGE_DATA (INIT suffix) = false.
Proof. reflexivity. Qed.

(** ** The field reducers on their two branches *)

Lemma dataReducer_change (state : value) (a : Action) :
  is_CHANGE_DATA a = true -> dataReducer state a = Action.data a.
Proof. unfold dataReducer. now intros ->. Qed.

Lemma dataReducer_default (state : value) (a : Action) :
  is_CHANGE_DATA a = false ->
  dataReducer state a = default_param (VStr "") state.
Proof. unfold dataReducer. now intros ->. Qed.

Lemma successReducer_change (state : value) (a : Action) :
  is_CHANGE_DATA a = true -> successReducer state a = VBool true.
Proof. unfold successReducer. now intros ->. Qed.

Lemma successReducer_default (state : value) (a : Action) :
  is_CHANGE_DATA a = false ->
  successReducer state a = default_param (VBool false) state.
Proof. unfold successReducer. now intros ->. Qed.

Lemma successReducer_defined (state : value) (a : Action) :
  is_undefined (successReducer state a) = false.
Proof.
  unfold successReducer. destruct (is_CHANGE_DATA a); [reflexivity|].
  now destruct state.
Qed.

Lemma default_param_idempotent (d x : value) :
  default_param d (default_param d x) = default_param d x.
Proof. destruct x; try reflexivity. now destruct d. Qed.

Lemma default_param_not_undefined (d x : value) :
  d <> VUndefined -> is_undefined (default_param d x) = false.
Proof. intros Hd. destruct x; try reflexivity. now destruct d. Qed.

Lemma default_param_defined (d x : value) :
  is_undefined x = false -> default_param d x = x.
Proof. now destruct x. Qed.

(** The root reducer in one step: it fails exactly when [dataReducer] yields
    [undefined], and otherwise returns the three field results. *)
Lemma reduxApp_unfold (state : option StateObject) (a : Action) :
  let s := match state with Some s => s | None => empty_object end in
  reduxApp state a =
    if is_undefined (dataReducer (data s) a)
    then Throw (ReducerReturnedUndefined "data")
    else Return {| data := dataReducer (data s) a;
                   success := successReducer (success s) a;
                   renderCount := countReducer (renderCount s) a |}.
Proof.
  intros s. unfold reduxApp, combineReducers, fieldReducers. fold s.
  cbn [data_reducer success_reducer renderCount_reducer].
  destruct (is_undefined (dataReducer (data s) a)); [reflexivity|].
  rewrite successReducer_defined.
  assert (Hc : exists n, countReducer (renderCount s) a = Some n).
  { unfold countReducer. destruct (is_CHANGE_DATA a); eauto. }
  destruct Hc as [n Hc]. rewrite Hc. f_equal.
  match goal with |- (if hasChanged ?p ?q then _ else _) = _ =>
    destruct (hasChanged p q) eqn:E; [reflexivity|];
    apply hasChanged_false in E; symmetry; exact E end.
Qed.

Lemma countReducer_change (c : option number) (a : Action) :
  is_CHANGE_DATA a = true ->
  countReducer c a = Some (add_one (match c with Some n => n | None => 0 end)).
Proof. unfold countReducer. now intros ->. Qed.

Lemma countReducer_default (c : option number) (a : Action) :
  is_CHANGE_DATA a = false ->
  countReducer c a = Some (match c with Some n => n | None => 0 end).
Proof. unfold countReducer. now intros ->. Qed.

(** What the design asks of every field reducer, and what redux probes when
    the reducers are combined: from no state and an action it does not know,
    a reducer yields its default, never [undefined]. *)
Lemma reduxApp_undefined_state (a : Action) :
  is_CHANGE_DATA a = false ->
  reduxApp None a = Return (mkState (VStr "") (VBool false) (Some 0)).
Proof.
  intros H. rewrite reduxApp_unfold. cbn [empty_object data success renderCount].
  rewrite dataReducer_default, successReducer_default, countReducer_default
    by exact H.
  reflexivity.
Qed.

(** ** One dispatch on a store that holds a state *)

Lemma dispatched_cases (s : StateObject) (a : Action) :
  dispatched reduxApp a (mkStore (Some s)) = mkStore (Some s)
  \/ exists s', reduxApp (Some s) a = Return s'
                /\ dispatched reduxApp a (mkStore (Some s)) = mkStore (Some s').
Proof.
  unfold dispatched, dispatch. cbn [currentState].
  destruct (is_undefined (Action.type a)); [now left|].
  destruct (reduxApp (Some s) a) as [s'|e] eqn:E; cbn [bind].
  - right. now exists s'.
  - now left.
Qed.

(** An invariant of the state that every returning reduction preserves holds
    after any sequence of dispatches. *)
Lemma dispatch_all_invariant (P : StateObject -> Prop) :
  (forall s a s', P s -> reduxApp (Some s) a = Return s' -> P s') ->
  forall (actions : list Action) (s : StateObject),
    P s ->
    exists s', currentState (dispatch_all reduxApp actions (mkStore (Some s)))
               = Some s' /\ P s'.
Proof.
  intros Hstep actions. unfold dispatch_all.
  induction actions as [|a actions IH]; intros s Hs.
  - exists s. now split.
  - cbn [fold_left].
    destruct (dispatched_cases s a) as [->|(s' & Hr & ->)].
    + now apply IH.
    + apply IH. eapply Hstep; eauto.
Qed.

(** ** One dispatch, by the kind of action *)

Lemma carries_data_true (a : Action) :
  carries_data a = true <->
  Action.type a = VStr "CHANGE_DATA" /\ Action.data a <> VUndefined.
Proof.
  unfold carries_data. rewrite andb_true_iff, negb_true_iff, is_CHANGE_DATA_true.
  split; intros [H1 H2]; split; trivial.
  - intros E. now rewrite E in H2.
  - now destruct (Action.data a).
Qed.

Lemma CHANGE_DATA_type_defined (a : Action) :
  is_CHANGE_DATA a = true -> is_undefined (Action.type a) = false.
Proof. intros H. apply is_CHANGE_DATA_true in H. now rewrite H. Qed.

(** An action with a payload replaces [data], sets [success] and counts. *)
Lemma dispatched_carries_data (s : StateObject) (a : Action) :
  carries_data a = true ->
  dispatched reduxApp a (mkStore (Some s))
  = mkStore
      (Some {| data := Action.data a; success := VBool true;
               renderCount :=
                 Some (add_one (match renderCount s with
                                | Some n => n | None => 0 end)) |}).
Proof.
  unfold carries_data. intros H. apply andb_true_iff in H as [Hc Hd].
  apply negb_true_iff in Hd.
  unfold dispatched, dispatch. rewrite (CHANGE_DATA_type_defined a Hc).
  cbn [currentState]. rewrite reduxApp_unfold. cbn zeta.
  rewrite dataReducer_change, successReducer_change, countReducer_change
    by exact Hc.
  rewrite Hd. reflexivity.
Qed.

(** Any other action leaves a state as it is: it is refused by [dispatch]
    (no type), refused by the root reducer (CHANGE_DATA without payload), or
    takes the default branch of every field reducer. *)
Lemma dispatched_without_data (s : StateObject) (a : Action) :
  carries_data a = false -> is_state s = true ->
  dispatched reduxApp a (mkStore (Some s)) = mkStore (Some s).
Proof.
  unfold carries_data. intros H Hs.
  unfold dispatched, dispatch.
  destruct (is_undefined (Action.type a)); [reflexivity|].
  cbn [currentState]. rewrite reduxApp_unfold. cbn zeta.
  destruct (is_CHANGE_DATA a) eqn:Hc.
  - cbn [andb] in H. apply negb_false_iff in H.
    rewrite dataReducer_change by exact Hc. now rewrite H.
  - unfold is_state in Hs.
    apply andb_true_iff in Hs as [Hs Hn]. apply andb_true_iff in Hs as [Hd Hs].
    apply negb_true_iff in Hd, Hs.
    rewrite dataReducer_default, successReducer_default, countReducer_default
      by exact Hc.
    rewrite !default_param_defined by assumption. rewrite Hd. cbn [bind].
    destruct s as [d sc [n|]]; [reflexivity | discriminate].
Qed.

(** On the count alone, the same holds for every state object. *)
Lemma dispatched_without_data_count (s : StateObject) (a : Action) (c : number) :
  carries_data a = false -> renderCount s = Some c ->
  exists s', dispatched reduxApp a (mkStore (Some s)) = mkStore (Some s')
             /\ renderCount s' = Some c.
Proof.
  unfold carries_data. intros H Hs.
  unfold dispatched, dispatch.
  destruct (is_undefined (Action.type a)); [now exists s|].
  cbn [currentState]. rewrite reduxApp_unfold. cbn zeta.
  destruct (is_CHANGE_DATA a) eqn:Hc.
  - cbn [andb] in H. apply negb_false_iff in H.
    rewrite dataReducer_change by exact Hc. rewrite H. now exists s.
  - rewrite dataReducer_default, countReducer_default by exact Hc.
    rewrite default_param_not_undefined by discriminate. cbn [bind].
    eexists. split; [reflexivity|]. cbn [renderCount]. now rewrite Hs.
Qed.

Lemma is_state_after_data (a : Action) (c : number) :
  carries_data a = true ->
  is_state {| data := Action.data a; success := VBool true;
              renderCount := Some c |} = true.
Proof.
  unfold carries_data, is_state. intros H.
  apply andb_true_iff in H as [_ H]. cbn [data success renderCount].
  now rewrite H.
Qed.

(** The root reducer returns states only. *)
Lemma reduxApp_returns_states (state : option StateObject) (a : Action)
  (s' : StateObject) :
  reduxApp state a = Return s' -> is_state s' = true.
Proof.
  rewrite reduxApp_unfold. cbn zeta.
  destruct (is_undefined (dataReducer _ a)) eqn:Hd; [discriminate|].
  intros [= <-]. unfold is_state. cbn [data success renderCount].
  rewrite Hd, successReducer_defined.
  unfold countReducer. now destruct (is_CHANGE_DATA a).
Qed.

Lemma createStore_returns_state (p : option StateObject) (suffix : string) :
  exists s, createStore reduxApp p suffix = Return (mkStore (Some s))
            /\ is_state s = true.
Proof.
  unfold createStore, dispatch.
  change (is_undefined (Action.type (INIT suffix))) with false.
  cbn [currentState].
  destruct (reduxApp p (INIT suffix)) as [s|e] eqn:E.
  - exists s. split; [reflexivity|]. eapply reduxApp_returns_states; eauto.
  - exfalso. revert E. rewrite reduxApp_unfold. cbn zeta.
    rewrite dataReducer_default by apply (INIT_is_unknown suffix).
    now rewrite default_param_not_undefined by discriminate.
Qed.

Lemma reduxApp_fixes_states (s : StateObject) (a : Action) :
  is_state s = true -> is_CHANGE_DATA a = false -> reduxApp (Some s) a = Return s.
Proof.
  intros Hs Hc. unfold is_state in Hs.
  apply andb_true_iff in Hs as [Hs Hn]. apply andb_true_iff in Hs as [Hd Hs].
  apply negb_true_iff in Hd, Hs.
  rewrite reduxApp_unfold. cbn zeta.
  rewrite dataReducer_default, successReducer_default, countReducer_default
    by exact Hc.
  rewrite !default_param_defined by assumption. rewrite Hd.
  destruct s as [d sc [n|]]; [reflexivity | discriminate].
Qed.

Lemma dispatch_all_cons
  (reducer : option StateObject -> Action -> result StateObject)
  (a : Action) (actions : list Action) (store : Store) :
  dispatch_all reducer (a :: actions) store
  = dispatch_all reducer actions (dispatched reducer a store).
Proof. reflexivity. Qed.

Lemma last_cons {A} (x : A) (l : list A) (d : A) : last (x :: l) d = last l x.
Proof.
  revert x d. induction l as [|y l IH]; intros x d; [reflexivity|].
  change (last (x :: y :: l) d) with (last (y :: l) d).
  now rewrite (IH y d), (IH y x).
Qed.

Lemma add_one_at_2_53 : add_one (2 ^ 53) = 2 ^ 53.
Proof. reflexivity. Qed.

(** ** Sequences of dispatches *)

(** An action with a payload, on any store: the store then holds a state
    with that payload as [data] and [success = true]. *)
Lemma dispatched_carries_data_any (store : Store) (a : Action) :
  carries_data a = true ->
  exists s', currentState (dispatched reduxApp a store) = Some s'
             /\ data s' = Action.data a /\ success s' = VBool true
             /\ is_state s' = true.
Proof.
  intros Ha. pose proof Ha as Hb. unfold carries_data in Hb.
  apply andb_true_iff in Hb as [Hc Hd]. apply negb_true_iff in Hd.
  unfold dispatched, dispatch. rewrite (CHANGE_DATA_type_defined a Hc).
  rewrite reduxApp_unfold. cbn zeta.
  rewrite dataReducer_change, successReducer_change, countReducer_change
    by exact Hc.
  rewrite Hd. cbn [bind currentState].
  eexists. split; [reflexivity|]. repeat split.
  now apply is_state_after_data.
Qed.

(** A CHANGE_DATA action without payload, on any store: the dispatch raises
    and the store is left as it was. *)
Lemma dispatched_without_payload (store : Store) (a : Action) :
  is_CHANGE_DATA a = true -> Action.data a = VUndefined ->
  dispatch reduxApp a store = Throw (ReducerReturnedUndefined "data")
  /\ dispatched reduxApp a store = store.
Proof.
  intros Hc Hd. unfold dispatched, dispatch.
  rewrite (CHANGE_DATA_type_defined a Hc). rewrite reduxApp_unfold. cbn zeta.
  rewrite dataReducer_change by exact Hc. rewrite Hd. now split.
Qed.

(** The count after a sequence of dispatches, while it stays exact. *)
Lemma dispatch_all_count (actions : list Action) :
  forall (s : StateObject) (c : number),
    renderCount s = Some c ->
    - 2 ^ 53 <= c ->
    c + Z.of_nat (length (filter carries_data actions)) <= 2 ^ 53 ->
    exists s',
      currentState (dispatch_all reduxApp actions (mkStore (Some s))) = Some s'
      /\ renderCount s'
         = Some (c + Z.of_nat (length (filter carries_data actions))).
Proof.
  induction actions as [|a actions IH]; intros s c Hs Hlo Hhi.
  - exists s. cbn [filter length Z.of_nat]. rewrite Z.add_0_r. now split.
  - rewrite dispatch_all_cons. cbn [filter] in *.
    destruct (carries_data a) eqn:Ha.
    + cbn [length] in *. rewrite Nat2Z.inj_succ in *.
      rewrite dispatched_carries_data by exact Ha. rewrite Hs.
      rewrite add_one_exact by lia.
      destruct (IH {| data := Action.data a; success := VBool true;
                      renderCount := Some (c + 1) |} (c + 1))
        as (s' & E & Hc); [reflexivity | lia | lia |].
      exists s'. split; [exact E|]. rewrite Hc. f_equal. lia.
    + destruct (dispatched_without_data_count s a c Ha Hs) as (s1 & -> & H1).
      now apply IH.
Qed.

(** The payload and the flag after a sequence of dispatches. *)
Lemma dispatch_all_last (actions : list Action) :
  forall s : StateObject,
    is_state s = true ->
    exists s',
      currentState (dispatch_all reduxApp actions (mkStore (Some s))) = Some s'
      /\ data s' = last (map Action.data (filter carries_data actions)) (data s)
      /\ success s'
         = (if existsb carries_data actions then VBool true else success s).
Proof.
  induction actions as [|a actions IH]; intros s Hs.
  - exists s. now repeat split.
  - rewrite dispatch_all_cons. cbn [filter existsb].
    destruct (carries_data a) eqn:Ha.
    + rewrite dispatched_carries_data by exact Ha.
      edestruct IH as (s' & E & Hd & Hsc);
        [apply is_state_after_data; exact Ha|].
      exists s'. cbn [data success] in Hd, Hsc. cbn [map orb].
      rewrite last_cons. repeat split; [exact E | exact Hd |].
      rewrite Hsc. now destruct (existsb carries_data actions).
    + rewrite dispatched_without_data by assumption. cbn [orb].
      now apply IH.
Qed.

(** ** The combinator and its wording in the specification *)

(** Whenever [combineReducers] returns, it returns the record that section
    4.2 describes; it differs from that description only where it raises. *)
Lemma combineReducers_refines_assemble (reducers : Reducers)
  (state : option StateObject) (a : Action) (next : StateObject) :
  combineReducers reducers state a = Return next ->
  next = assemble reducers state a.
Proof.
  unfold combineReducers, assemble.
  set (s := match state with Some s => s | None => empty_object end).
  destruct (is_undefined (data_reducer reducers (data s) a)); [discriminate|].
  destruct (is_undefined (success_reducer reducers (success s) a));
    [discriminate|].
  destruct (renderCount_reducer reducers (renderCount s) a) as [n|];
    [|discriminate].
  match goal with |- Return (if hasChanged ?p ?q then _ else _) = _ -> _ =>
    destruct (hasChanged p q) eqn:E end.
  - now intros [= <-].
  - intros [= <-]. apply hasChanged_false in E. now symmetry.
Qed.

(** The scenario of section 8: from [{data: "", success: false,
    renderCount: 0}], three dispatches of CHANGE_DATA with ["hello"]. *)
Example three_dispatches :
  dispatch_all reduxApp
    (repeat (Action.make (VStr "CHANGE_DATA") (VStr "hello")) 3)
    (mkStore (Some (mkState (VStr "") (VBool false) (Some 0))))
  = mkStore (Some (mkState (VStr "hello") (VBool true) (Some 3))).
Proof. reflexivity. Qed.

(** The whole loop once: the store of index.js, the connected presenter
    rendered from its state, one click, and the state read back. *)
Example click_on_appStore (suffix : string) :
  exists (store : Store) (s : StateObject),
    appStore suffix = Return store
    /\ getState store = Some s
    /\ getState (click_all (snd (Container s (dispatched reduxApp))) store)
       = Some (mkState (VStr "the Presenter changed me") (VBool true) (Some 1)).
Proof.
  exists (mkStore (Some (mkState (VStr "") (VBool false) (Some 0)))),
         (mkState (VStr "") (VBool false) (Some 0)).
  repeat split.
Qed.

(** * The claims *)

(** ** C1: the CHANGE_DATA transition *)

(** C1, at a count the claim does not hold for.  [2^53] is a number, and
    [2^53 + 1] is not: on the state [{data: "", success: false,
    renderCount: 2^53}] the action [{type: "CHANGE_DATA", data: "x"}] yields
    renderCount [2^53] again, not [2^53 + 1]; the binary64 sum of the
    kernel's floats is the same. *)
Lemma reduxApp_CHANGE_DATA_at_2_53 :
  is_double (2 ^ 53) = true
  /\ is_double (2 ^ 53 + 1) = false
  /\ agrees_with_binary64 (2 ^ 53) = true
  /\ reduxApp (Some (mkState (VStr "") (VBool false) (Some (2 ^ 53))))
              (Action.make (VStr "CHANGE_DATA") (VStr "x"))
     = Return (mkState (VStr "x") (VBool true) (Some (2 ^ 53)))
  /\ (2 ^ 53 + 1 =? 2 ^ 53) = false.
Proof. vm_compute. repeat split. Qed.

(** C1 (amended): for every prior state [{data: D, success: S, renderCount: C}]
    whose count satisfies [-2^53 <= C < 2^53], and every string [X], the root
    reducer applied to [{type: "CHANGE_DATA", data: X}] returns exactly
    [{data: X, success: true, renderCount: C + 1}], whatever [D] and [S]. *)
Theorem reduxApp_CHANGE_DATA (D S : value) (C : number) (X : string) :
  - 2 ^ 53 <= C < 2 ^ 53 ->
  reduxApp (Some (mkState D S (Some C)))
           (Action.make (VStr "CHANGE_DATA") (VStr X))
  = Return (mkState (VStr X) (VBool true) (Some (C + 1))).
Proof.
  intros HC. rewrite reduxApp_unfold. cbn [data success renderCount].
  rewrite dataReducer_change, successReducer_change, countReducer_change
    by reflexivity.
  cbn [Action.data is_undefined]. now rewrite add_one_exact.
Qed.

(** The transition from the initial state of the scenario in section 8. *)
Lemma reduxApp_CHANGE_DATA_witness :
  reduxApp (Some (mkState (VStr "") (VBool false) (Some 0)))
           (Action.make (VStr "CHANGE_DATA") (VStr "hello"))
  = Return (mkState (VStr "hello") (VBool true) (Some (0 + 1))).
Proof. apply (reduxApp_CHANGE_DATA (VStr "") (VBool false) 0 "hello"). lia. Defined.

(** ** C2: unknown actions leave a state as it is *)

(** C2: for every state [s] (all three fields defined) and every action [a]
    whose type is not ["CHANGE_DATA"], the root reducer returns [s]; each
    field reducer returns its input on the default branch, no key is seen as
    changed, and so the object handed back is the previous one itself. *)
Theorem reduxApp_unknown_action (s : StateObject) (a : Action) :
  is_state s = true ->
  Action.type a <> VStr "CHANGE_DATA" ->
  reduxApp (Some s) a = Return s
  /\ dataReducer (data s) a = data s
  /\ successReducer (success s) a = success s
  /\ countReducer (renderCount s) a = renderCount s
  /\ hasChanged s {| data := dataReducer (data s) a;
                     success := successReducer (success s) a;
                     renderCount := countReducer (renderCount s) a |} = false.
Proof.
  intros Hs Ha. apply is_CHANGE_DATA_false in Ha.
  unfold is_state in Hs.
  apply andb_true_iff in Hs as [Hs Hc]. apply andb_true_iff in Hs as [Hd Hs].
  apply negb_true_iff in Hd, Hs.
  assert (Ed : dataReducer (data s) a = data s)
    by (rewrite dataReducer_default by exact Ha; now apply default_param_defined).
  assert (Es : successReducer (success s) a = success s)
    by (rewrite successReducer_default by exact Ha;
        now apply default_param_defined).
  assert (Ec : countReducer (renderCount s) a = renderCount s)
    by (rewrite countReducer_default by exact Ha;
        now destruct (renderCount s)).
  rewrite reduxApp_unfold. cbn zeta. rewrite Ed, Es, Ec, Hd.
  repeat split; try reflexivity.
  - now destruct s.
  - replace {| data := data s; success := success s;
               renderCount := renderCount s |} with s by now destruct s.
    apply hasChanged_same.
Qed.

(** A state and an action of another type. *)
Lemma reduxApp_unknown_action_witness :
  reduxApp (Some (mkState (VStr "d") (VBool true) (Some 7)))
           (Action.make (VStr "SOMETHING_ELSE") (VStr "ignored"))
  = Return (mkState (VStr "d") (VBool true) (Some 7)).
Proof.
  apply (reduxApp_unknown_action
           (mkState (VStr "d") (VBool true) (Some 7))
           (Action.make (VStr "SOMETHING_ELSE") (VStr "ignored"))).
  - reflexivity.
  - discriminate.
Defined.

(** ** C3: a store built without an initial state *)

(** C3: [createStore(reduxApp)] with no initial state returns a store whose
    state is [{data: "", success: false, renderCount: 0}]: the root reducer,
    given no state and the initial action, assembles the default parameter
    value of each field reducer. *)
Theorem createStore_without_initial_state (suffix : string) :
  createStore reduxApp None suffix
  = Return (mkStore (Some (mkState (VStr "") (VBool false) (Some 0))))
  /\ reduxApp None (INIT suffix)
     = Return (mkState (VStr "") (VBool false) (Some 0))
  /\ dataReducer VUndefined (INIT suffix) = VStr ""
  /\ successReducer VUndefined (INIT suffix) = VBool false
  /\ countReducer None (INIT suffix) = Some 0.
Proof.
  assert (H : reduxApp None (INIT suffix)
              = Return (mkState (VStr "") (VBool false) (Some 0)))
    by (apply reduxApp_undefined_state, INIT_is_unknown).
  unfold createStore, dispatch. cbn [currentState INIT Action.type is_undefined].
  rewrite H. repeat split; reflexivity.
Qed.

(** ** C4: success never reverts *)

Lemma reduxApp_keeps_success (s : StateObject) (a : Action) (s' : StateObject) :
  success s = VBool true -> reduxApp (Some s) a = Return s' ->
  success s' = VBool true.
Proof.
  intros Hs. rewrite reduxApp_unfold. cbn zeta.
  destruct (is_undefined _); [discriminate|].
  intros [= <-]. cbn [success]. rewrite Hs.
  unfold successReducer. now destruct (is_CHANGE_DATA a).
Qed.

(** C4: if [success] is [true] in a state [s], then for every action the
    success reducer returns [true], every state the root reducer returns has
    [success = true], and after any sequence of dispatches the store still
    holds a state with [success = true]. *)
Theorem success_never_reverts (s : StateObject) (a : Action) :
  success s = VBool true ->
  successReducer (success s) a = VBool true
  /\ (forall s', reduxApp (Some s) a = Return s' -> success s' = VBool true)
  /\ (forall actions : list Action,
        exists s',
          currentState (dispatch_all reduxApp actions (mkStore (Some s)))
          = Some s'
          /\ success s' = VBool true).
Proof.
  intros Hs. split; [|split].
  - rewrite Hs. unfold successReducer. now destruct (is_CHANGE_DATA a).
  - intros s'. now apply reduxApp_keeps_success.
  - intros actions.
    apply (dispatch_all_invariant (fun s => success s = VBool true)).
    + intros s0 a0 s1 H0 H1. exact (reduxApp_keeps_success s0 a0 s1 H0 H1).
    + exact Hs.
Qed.

(** Three dispatches on a state with [success = true]: an unknown action, a
    CHANGE_DATA, and a CHANGE_DATA without payload. *)
Lemma success_never_reverts_witness :
  exists s',
    currentState
      (dispatch_all reduxApp
         [Action.make (VStr "RESET") VUndefined;
          Action.make (VStr "CHANGE_DATA") (VStr "again");
          Action.make (VStr "CHANGE_DATA") VUndefined]
         (mkStore (Some (mkState (VStr "d") (VBool true) (Some 1)))))
    = Some s'
    /\ success s' = VBool true.
Proof.
  apply (success_never_reverts
           (mkState (VStr "d") (VBool true) (Some 1))
           (Action.make (VStr "RESET") VUndefined)).
  reflexivity.
Defined.

(** ** C5: idempotence *)

(** C5: for every state object (or none) and every action whose type is not
    ["CHANGE_DATA"], the root reducer returns a state on which the same action
    has no further effect; and there are a state and a CHANGE_DATA action for
    which the second application differs from the first, in [renderCount]. *)
Theorem reduxApp_idempotence :
  (forall (state : option StateObject) (a : Action),
      Action.type a <> VStr "CHANGE_DATA" ->
      exists s1, reduxApp state a = Return s1
                 /\ reduxApp (Some s1) a = Return s1)
  /\ (exists (s : StateObject) (a : Action) (s1 s2 : StateObject),
         Action.type a = VStr "CHANGE_DATA"
         /\ reduxApp (Some s) a = Return s1
         /\ reduxApp (Some s1) a = Return s2
         /\ renderCount s1 = Some 1 /\ renderCount s2 = Some 2
         /\ s2 <> s1).
Proof.
  split.
  - intros state a Ha. apply is_CHANGE_DATA_false in Ha.
    rewrite reduxApp_unfold. cbn zeta.
    set (s := match state with Some s => s | None => empty_object end).
    rewrite dataReducer_default, successReducer_default, countReducer_default
      by exact Ha.
    rewrite default_param_not_undefined by discriminate.
    eexists. split; [reflexivity|].
    rewrite reduxApp_unfold. cbn [data success renderCount].
    rewrite dataReducer_default, successReducer_default, countReducer_default
      by exact Ha.
    rewrite !default_param_idempotent.
    rewrite default_param_not_undefined by discriminate. reflexivity.
  - exists (mkState (VStr "") (VBool false) (Some 0)),
           (Action.make (VStr "CHANGE_DATA") (VStr "hello")),
           (mkState (VStr "hello") (VBool true) (Some 1)),
           (mkState (VStr "hello") (VBool true) (Some 2)).
    repeat split; try reflexivity. discriminate.
Qed.

(** An unknown action on the initial state of index.js, which has no
    [data]. *)
Lemma reduxApp_idempotence_witness :
  exists s1,
    reduxApp (Some initialState) (Action.make (VStr "PING") VNull) = Return s1
    /\ reduxApp (Some s1) (Action.make (VStr "PING") VNull) = Return s1.
Proof.
  apply (proj1 reduxApp_idempotence (Some initialState)
           (Action.make (VStr "PING") VNull)).
  discriminate.
Defined.

(** ** C6: the counter *)

(** C6, at a count the claim does not hold for: [2^53] is a number, and on
    CHANGE_DATA the reducer returns [2^53], not [2^53 + 1], as the binary64
    sum of the kernel's floats does. *)
Lemma countReducer_at_2_53 :
  is_double (2 ^ 53) = true
  /\ agrees_with_binary64 (2 ^ 53) = true
  /\ countReducer (Some (2 ^ 53)) (Action.make (VStr "CHANGE_DATA") (VStr "x"))
     = Some (2 ^ 53)
  /\ (2 ^ 53 + 1 =? 2 ^ 53) = false.
Proof. vm_compute. repeat split. Qed.

Lemma countReducer_nondecreasing (c : number) (a : Action) :
  is_double c = true ->
  exists c', countReducer (Some c) a = Some c' /\ c <= c'
             /\ is_double c' = true.
Proof.
  intros Hc. unfold countReducer. destruct (is_CHANGE_DATA a).
  - exists (add_one c). cbn [pre_increment snd].
    auto using add_one_nondecreasing, add_one_is_double.
  - exists c. repeat split; [lia | exact Hc].
Qed.

Lemma reduxApp_count_nondecreasing (c : number) (s : StateObject) (a : Action)
  (s' : StateObject) :
  (exists c0, renderCount s = Some c0 /\ c <= c0 /\ is_double c0 = true) ->
  reduxApp (Some s) a = Return s' ->
  exists c1, renderCount s' = Some c1 /\ c <= c1 /\ is_double c1 = true.
Proof.
  intros (c0 & E0 & Hle & Hd). rewrite reduxApp_unfold. cbn zeta.
  destruct (is_undefined _); [discriminate|].
  intros [= <-]. cbn [renderCount]. rewrite E0.
  destruct (countReducer_nondecreasing c0 a Hd) as (c1 & E1 & Hle1 & Hd1).
  exists c1. repeat split; [exact E1 | lia | exact Hd1].
Qed.

(** C6 (amended): for every integer count [c] that is a number,
    [countReducer(c, a)] returns [c + 1] when [a.type] is ["CHANGE_DATA"] and
    [-2^53 <= c < 2^53]; outside that range the sum is rounded to a number
    and the result is [c], [c + 1] or [c + 2].  The result is the value of
    [++state], the new binding of the reducer's own parameter, and the
    caller's [c] is an argument passed by value.  For every other action
    type it returns [c].  For every action the result is a number not below
    [c], so [renderCount] never decreases, across one action and across any
    sequence of dispatches.  If moreover [-2^53 <= c], a sequence of
    dispatches in which [k] actions are CHANGE_DATA with a payload, with
    [c + k <= 2^53], leaves [renderCount] at exactly [c + k]: each of them
    adds exactly 1, and neither an action of another type nor a CHANGE_DATA
    without payload, which the root reducer refuses, adds anything. *)
Theorem countReducer_counts (c : number) (a : Action) :
  is_double c = true ->
  (Action.type a = VStr "CHANGE_DATA" -> - 2 ^ 53 <= c < 2 ^ 53 ->
   countReducer (Some c) a = Some (c + 1))
  /\ (Action.type a = VStr "CHANGE_DATA" ->
      countReducer (Some c) a = Some (add_one c)
      /\ (add_one c = c \/ add_one c = c + 1 \/ add_one c = c + 2))
  /\ (Action.type a = VStr "CHANGE_DATA" ->
      countReducer (Some c) a = Some (snd (pre_increment c))
      /\ fst (pre_increment c) = snd (pre_increment c)
      /\ snd (post_increment c) = c)
  /\ (Action.type a <> VStr "CHANGE_DATA" -> countReducer (Some c) a = Some c)
  /\ (exists c', countReducer (Some c) a = Some c' /\ c <= c'
                 /\ is_double c' = true)
  /\ (forall (s : StateObject) (actions : list Action),
        renderCount s = Some c ->
        exists s' c',
          currentState (dispatch_all reduxApp actions (mkStore (Some s)))
          = Some s'
          /\ renderCount s' = Some c' /\ c <= c')
  /\ (forall (s : StateObject) (actions : list Action),
        renderCount s = Some c ->
        - 2 ^ 53 <= c ->
        c + Z.of_nat (length (filter carries_data actions)) <= 2 ^ 53 ->
        exists s',
          currentState (dispatch_all reduxApp actions (mkStore (Some s)))
          = Some s'
          /\ renderCount s'
             = Some (c + Z.of_nat (length (filter carries_data actions)))).
Proof.
  intros Hc. split; [|split; [|split; [|split; [|split; [|split]]]]].
  - intros Ha Hr. apply is_CHANGE_DATA_true in Ha.
    rewrite countReducer_change by exact Ha. now rewrite add_one_exact.
  - intros Ha. apply is_CHANGE_DATA_true in Ha.
    rewrite countReducer_change by exact Ha. split; [reflexivity|].
    destruct (add_one_cases c Hc) as [[_ E]|[E|[_ E]]]; auto.
  - intros Ha. apply is_CHANGE_DATA_true in Ha. unfold countReducer.
    rewrite Ha. repeat split.
  - intros Ha. apply is_CHANGE_DATA_false in Ha.
    now rewrite countReducer_default.
  - now apply countReducer_nondecreasing.
  - intros s actions Hs.
    destruct (dispatch_all_invariant
                (fun s => exists c0, renderCount s = Some c0 /\ c <= c0
                                     /\ is_double c0 = true)
                (reduxApp_count_nondecreasing c) actions s)
      as (s' & E & c' & E' & Hle & _).
    + exists c. repeat split; [exact Hs | lia | exact Hc].
    + exists s', c'. now repeat split.
  - intros s actions Hs Hlo Hhi. now apply dispatch_all_count.
Qed.

(** One CHANGE_DATA at count 41. *)
Lemma countReducer_counts_witness :
  countReducer (Some 41) (Action.make (VStr "CHANGE_DATA") (VStr "x"))
  = Some (41 + 1).
Proof.
  apply (proj1 (countReducer_counts 41
                  (Action.make (VStr "CHANGE_DATA") (VStr "x")) eq_refl)).
  - reflexivity.
  - lia.
Defined.

(** ** C7: the message the presenter shows *)

Lemma reduxApp_CHANGE_DATA_string (state : option StateObject) (x : string) :
  let s := match state with Some s => s | None => empty_object end in
  reduxApp state (Action.make (VStr "CHANGE_DATA") (VStr x))
  = Return {| data := VStr x; success := VBool true;
              renderCount :=
                Some (add_one (match renderCount s with
                               | Some n => n | None => 0 end)) |}.
Proof. intros s. rewrite reduxApp_unfold. reflexivity. Qed.

(** C7, as stated, fails for a CHANGE_DATA dispatch without payload: on the
    store of index.js after its construction, the dispatch of
    [{type: "CHANGE_DATA"}] raises, the store keeps its state, and the
    presenter still shows the no-data message, which is not the dispatched
    [data] value, [undefined]. *)
Lemma message_after_CHANGE_DATA_without_data :
  dispatch reduxApp (Action.make (VStr "CHANGE_DATA") VUndefined)
    (mkStore (Some (mkState (VStr "") (VBool false) (Some 0))))
  = Throw (ReducerReturnedUndefined "data")
  /\ getState
       (dispatched reduxApp (Action.make (VStr "CHANGE_DATA") VUndefined)
          (mkStore (Some (mkState (VStr "") (VBool false) (Some 0)))))
     = Some (mkState (VStr "") (VBool false) (Some 0))
  /\ span_contents
       (snd (Container (mkState (VStr "") (VBool false) (Some 0))
               (dispatched reduxApp)))
     = [VStr "We don't have data to show."; VNum 0]
  /\ strict_eq (VStr "We don't have data to show.")
       (Action.data (Action.make (VStr "CHANGE_DATA") VUndefined))
     = false.
Proof. repeat split. Qed.

(** C7 (amended): for all props [(success, data, count)] the message is
    [data] when [success] is [true] and the literal ["We don't have data to
    show."] when it is [false] (in general, when [success] is truthy or
    not); the tree shows that message in its first [span] and the count in
    its second.  Therefore, after the dispatch, on any store, of a
    CHANGE_DATA action whose [data] is not [undefined], the store holds a
    state whose rendered message is the dispatched [data]; on a store that
    holds a state, after any sequence of dispatches among which one is such
    an action, the rendered message is the [data] of the last such action.
    A CHANGE_DATA dispatch whose [data] is [undefined] raises and leaves the
    store, and so the rendered message, as it was. *)
Theorem Presenter_message (W : Type) (p_success p_data : value)
  (p_count : option number) (callbackFunc : W -> W) :
  let props := Props.make p_success p_data p_count callbackFunc in
  message props
  = (if ToBoolean p_success then p_data
     else VStr "We don't have data to show.")
  /\ message (Props.make (VBool true) p_data p_count callbackFunc) = p_data
  /\ message (Props.make (VBool false) p_data p_count callbackFunc)
     = VStr "We don't have data to show."
  /\ span_contents (snd (Presenter props))
     = [message props; count_value p_count]
  /\ (forall (state : option StateObject) (x : string)
             (dispatch : Action -> W -> W),
        exists s',
          reduxApp state (Action.make (VStr "CHANGE_DATA") (VStr x))
          = Return s'
          /\ span_contents (snd (Container s' dispatch))
             = [VStr x; count_value (renderCount s')])
  /\ (forall (store : Store) (a : Action) (dispatch : Action -> W -> W),
        Action.type a = VStr "CHANGE_DATA" ->
        Action.data a <> VUndefined ->
        exists s',
          getState (dispatched reduxApp a store) = Some s'
          /\ span_contents (snd (Container s' dispatch))
             = [Action.data a; count_value (renderCount s')])
  /\ (forall (s : StateObject) (actions : list Action)
             (dispatch : Action -> W -> W),
        is_state s = true ->
        existsb carries_data actions = true ->
        exists s',
          getState (dispatch_all reduxApp actions (mkStore (Some s)))
          = Some s'
          /\ span_contents (snd (Container s' dispatch))
             = [last (map Action.data (filter carries_data actions)) (data s);
                count_value (renderCount s')])
  /\ (forall (store : Store) (a : Action),
        Action.type a = VStr "CHANGE_DATA" ->
        Action.data a = VUndefined ->
        dispatch reduxApp a store = Throw (ReducerReturnedUndefined "data")
        /\ dispatched reduxApp a store = store).
Proof.
  cbn zeta.
  split; [reflexivity|]. split; [reflexivity|]. split; [reflexivity|].
  split; [reflexivity|]. split; [|split; [|split]].
  - intros state x dispatch. rewrite reduxApp_CHANGE_DATA_string.
    eexists. split; reflexivity.
  - intros store a dispatch Ht Hd.
    destruct (dispatched_carries_data_any store a) as (s' & E & Ed & Es & _).
    { apply carries_data_true. now split. }
    exists s'. split; [exact E|].
    destruct s' as [d sc rc]. cbn [data success] in Ed, Es. subst d sc.
    reflexivity.
  - intros s actions dispatch Hs Hex.
    destruct (dispatch_all_last actions s Hs) as (s' & E & Ed & Es).
    rewrite Hex in Es. exists s'. split; [exact E|].
    destruct s' as [d sc rc]. cbn [data success] in Ed, Es. subst d sc.
    reflexivity.
  - intros store a Ht Hd. apply dispatched_without_payload; [|exact Hd].
    now apply is_CHANGE_DATA_true.
Qed.

(** A CHANGE_DATA with the payload ["shown"] dispatched on the store of
    index.js. *)
Lemma Presenter_message_witness :
  exists s',
    getState
      (dispatched reduxApp (Action.make (VStr "CHANGE_DATA") (VStr "shown"))
         (mkStore (Some (mkState (VStr "") (VBool false) (Some 0)))))
    = Some s'
    /\ span_contents (snd (Container s' record_dispatch))
       = [Action.data (Action.make (VStr "CHANGE_DATA") (VStr "shown"));
          count_value (renderCount s')].
Proof.
  apply (proj1 (proj2 (proj2 (proj2 (proj2 (proj2
           (Presenter_message (list Action) VNull VNull None (fun w => w))))))));
    [reflexivity | discriminate].
Defined.

(** ** C8: the click dispatches once *)

(** C8: the callback prop made by [mapDispatchToProps] calls [dispatch] on
    the action [{type: "CHANGE_DATA", data: "the Presenter changed me"}] and
    does nothing else; the connected presenter has one clickable element,
    whose activation is that call; with a [dispatch] that records its
    arguments, the record grows by exactly that one action. *)
Theorem click_dispatches_once (W : Type) (dispatch : Action -> W -> W)
  (state : StateObject) (w : W) :
  presenter_action
  = Action.make (VStr "CHANGE_DATA") (VStr "the Presenter changed me")
  /\ DispatchProps.callbackFunc (mapDispatchToProps dispatch) w
     = dispatch presenter_action w
  /\ length (onClick_handlers (snd (Container state dispatch))) = 1%nat
  /\ click_all (snd (Container state dispatch)) w = dispatch presenter_action w
  /\ (forall log : list Action,
        DispatchProps.callbackFunc (mapDispatchToProps record_dispatch) log
        = (log ++ [presenter_action])%list
        /\ click_all (snd (Container state record_dispatch)) log
           = (log ++ [presenter_action])%list).
Proof. repeat split. Qed.

(** ** C9: a store built from an initial state that omits fields *)

Lemma createStore_fills_defaults (p : StateObject) (suffix : string) :
  createStore reduxApp (Some p) suffix
  = Return
      (mkStore
         (Some {| data := default_param (VStr "") (data p);
                  success := default_param (VBool false) (success p);
                  renderCount :=
                    Some (match renderCount p with
                          | Some n => n | None => 0 end) |})).
Proof.
  unfold createStore, dispatch.
  cbn [currentState INIT Action.type is_undefined].
  rewrite reduxApp_unfold. cbn zeta.
  rewrite dataReducer_default, successReducer_default, countReducer_default
    by apply INIT_is_unknown.
  assert (Hd : is_undefined (default_param (VStr "") (data p)) = false)
    by now destruct (data p).
  rewrite Hd. reflexivity.
Qed.

(** C9: [configureStore()], whose initial state [{renderCount: 0, success:
    false}] has no [data], returns a store, with state [{data: "", success:
    false, renderCount: 0}]; and for every initial state object, the
    construction returns a store in which each field that was missing has its
    reducer's default and each field that was present is kept. *)
Theorem configureStore_fills_data (suffix : string) (p : StateObject) :
  configureStore suffix
  = Return (mkStore (Some (mkState (VStr "") (VBool false) (Some 0))))
  /\ data initialState = VUndefined
  /\ createStore reduxApp (Some p) suffix
     = Return
         (mkStore
            (Some {| data := default_param (VStr "") (data p);
                     success := default_param (VBool false) (success p);
                     renderCount :=
                       Some (match renderCount p with
                             | Some n => n | None => 0 end) |})).
Proof.
  split; [|split].
  - unfold configureStore. now rewrite createStore_fills_defaults.
  - reflexivity.
  - apply createStore_fills_defaults.
Qed.

(** ** C10: CHANGE_DATA without a payload *)

(** C10, as stated, fails: on the state [{data: "", success: false,
    renderCount: 0}] the root reducer does not return a state for
    [{type: "CHANGE_DATA"}]; it raises the error for the key [data]. *)
Lemma reduxApp_CHANGE_DATA_without_data_throws :
  reduxApp (Some (mkState (VStr "") (VBool false) (Some 0)))
           (Action.make (VStr "CHANGE_DATA") VUndefined)
  = Throw (ReducerReturnedUndefined "data").
Proof. reflexivity. Qed.

(** C10 (amended): for the action [{type: "CHANGE_DATA"}] with no [data]
    field, no field reducer validates the payload: [dataReducer] returns the
    absent value [undefined], [successReducer] returns [true] and
    [countReducer] returns the count plus one.  The root reducer refuses the
    [undefined] result of the key [data] and raises an error instead of
    returning a state, so a store that dispatches the action keeps its
    state. *)
Theorem CHANGE_DATA_without_data (state : option StateObject) (d s : value)
  (c : option number) (store : Store) :
  let a := Action.make (VStr "CHANGE_DATA") VUndefined in
  dataReducer d a = VUndefined
  /\ successReducer s a = VBool true
  /\ countReducer c a
     = Some (add_one (match c with Some n => n | None => 0 end))
  /\ add_one 0 = 1
  /\ data (assemble fieldReducers state a) = VUndefined
  /\ reduxApp state a = Throw (ReducerReturnedUndefined "data")
  /\ dispatched reduxApp a store = store.
Proof.
  cbn zeta. repeat split.
Qed.

(** * Further properties of the reducers, the store and the view *)

(** ** X1: which reducer can yield [undefined], and when the root reducer
    raises *)

(** X1: [successReducer] and [countReducer] never return [undefined];
    [dataReducer] returns [undefined] exactly for an action of type
    ["CHANGE_DATA"] whose [data] is [undefined].  Hence the root reducer
    raises exactly for those actions, whatever the state, and the only error
    it raises is the one for the key [data]. *)
Theorem undefined_comes_from_data_only (state : option StateObject)
  (v : value) (c : option number) (a : Action) :
  is_undefined (successReducer v a) = false
  /\ (exists n, countReducer c a = Some n)
  /\ (dataReducer v a = VUndefined <->
      Action.type a = VStr "CHANGE_DATA" /\ Action.data a = VUndefined)
  /\ (reduxApp state a = Throw (ReducerReturnedUndefined "data") <->
      Action.type a = VStr "CHANGE_DATA" /\ Action.data a = VUndefined)
  /\ (forall e, reduxApp state a = Throw e
                -> e = ReducerReturnedUndefined "data").
Proof.
  assert (Hdata : forall v, dataReducer v a = VUndefined <->
            Action.type a = VStr "CHANGE_DATA" /\ Action.data a = VUndefined).
  { intros w. rewrite <- is_CHANGE_DATA_true. unfold dataReducer.
    destruct (is_CHANGE_DATA a).
    - split; [now split | now intros [_ H]].
    - split; [|now intros [H _]].
      intros H. now destruct w. }
  split; [apply successReducer_defined|].
  split; [unfold countReducer; destruct (is_CHANGE_DATA a); eauto|].
  split; [apply Hdata|].
  rewrite reduxApp_unfold. cbn zeta.
  set (s := match state with Some s => s | None => empty_object end).
  specialize (Hdata (data s)).
  destruct (dataReducer (data s) a) eqn:E; cbn [is_undefined].
  1: { split.
       - split; [intros _; now apply Hdata | reflexivity].
       - now intros e [= <-]. }
  all: split; [|discriminate]; split; [discriminate|];
    intros H; apply Hdata in H; discriminate.
Qed.

(** ** X2: the store always holds a state *)

(** X2: whatever the root reducer returns is a state, with [data], [success]
    and [renderCount] all defined; and from any initial state object, or
    none, [createStore] returns a store that holds a state after any
    sequence of dispatches. *)
Theorem store_always_holds_a_state :
  (forall (state : option StateObject) (a : Action) (s' : StateObject),
      reduxApp state a = Return s' -> is_state s' = true)
  /\ (forall (p : option StateObject) (suffix : string)
             (actions : list Action),
        exists (store : Store) (s : StateObject),
          createStore reduxApp p suffix = Return store
          /\ currentState (dispatch_all reduxApp actions store) = Some s
          /\ is_state s = true).
Proof.
  split; [exact reduxApp_returns_states|].
  intros p suffix actions.
  destruct (createStore_returns_state p suffix) as (s0 & E0 & H0).
  destruct (dispatch_all_invariant (fun s => is_state s = true)
              (fun s a s' _ H => reduxApp_returns_states (Some s) a s' H)
              actions s0 H0) as (s & E & H).
  exists (mkStore (Some s0)), s. auto.
Qed.

(** The state after an unknown action on the empty object. *)
Lemma store_always_holds_a_state_witness :
  is_state (mkState (VStr "") (VBool false) (Some 0)) = true.
Proof.
  apply (proj1 store_always_holds_a_state (Some empty_object)
           (Action.make (VStr "PING") VUndefined)).
  reflexivity.
Defined.

(** ** X3: only actions with a payload matter *)

(** X3: on a store that holds a state, a sequence of dispatches has the same
    outcome as the sequence of its CHANGE_DATA actions that carry a payload:
    actions of another type, actions without a type and CHANGE_DATA actions
    without [data] change nothing, wherever they occur. *)
Theorem only_data_actions_matter (s : StateObject) (actions : list Action) :
  is_state s = true ->
  dispatch_all reduxApp actions (mkStore (Some s))
  = dispatch_all reduxApp (filter carries_data actions) (mkStore (Some s)).
Proof.
  revert s. induction actions as [|a actions IH]; intros s Hs; [reflexivity|].
  rewrite dispatch_all_cons. cbn [filter].
  destruct (carries_data a) eqn:Ha.
  - rewrite dispatch_all_cons, dispatched_carries_data by exact Ha.
    apply IH. now apply is_state_after_data.
  - rewrite dispatched_without_data by assumption. now apply IH.
Qed.

(** Two effective actions among three that are not. *)
Lemma only_data_actions_matter_witness :
  dispatch_all reduxApp
    [Action.make (VStr "PING") (VStr "p");
     Action.make (VStr "CHANGE_DATA") (VStr "a");
     Action.make (VStr "CHANGE_DATA") VUndefined;
     Action.make VUndefined (VStr "q");
     Action.make (VStr "CHANGE_DATA") (VStr "b")]
    (mkStore (Some (mkState (VStr "") (VBool false) (Some 0))))
  = dispatch_all reduxApp
      (filter carries_data
         [Action.make (VStr "PING") (VStr "p");
          Action.make (VStr "CHANGE_DATA") (VStr "a");
          Action.make (VStr "CHANGE_DATA") VUndefined;
          Action.make VUndefined (VStr "q");
          Action.make (VStr "CHANGE_DATA") (VStr "b")])
      (mkStore (Some (mkState (VStr "") (VBool false) (Some 0)))).
Proof.
  apply (only_data_actions_matter (mkState (VStr "") (VBool false) (Some 0))).
  reflexivity.
Defined.

(** ** X4: the counter counts the actions with a payload *)

(** X4: if a state object has count [c >= -2^53], then after any sequence of
    dispatches in which [k] actions are CHANGE_DATA with a payload, with
    [c + k <= 2^53], the store holds a state whose [renderCount] is exactly
    [c + k]: every action with a payload counts once, and nothing else
    counts. *)
Theorem renderCount_counts_data_actions (s : StateObject) (c : number)
  (actions : list Action) :
  renderCount s = Some c ->
  - 2 ^ 53 <= c ->
  c + Z.of_nat (length (filter carries_data actions)) <= 2 ^ 53 ->
  exists s',
    currentState (dispatch_all reduxApp actions (mkStore (Some s))) = Some s'
    /\ renderCount s'
       = Some (c + Z.of_nat (length (filter carries_data actions))).
Proof.
  revert s c.
  induction actions as [|a actions IH]; intros s c Hs Hlo Hhi.
  - exists s. cbn [filter length Z.of_nat]. rewrite Z.add_0_r. now split.
  - rewrite dispatch_all_cons. cbn [filter] in *.
    destruct (carries_data a) eqn:Ha.
    + cbn [length] in *. rewrite Nat2Z.inj_succ in *.
      rewrite dispatched_carries_data by exact Ha. rewrite Hs.
      rewrite add_one_exact by lia.
      destruct (IH {| data := Action.data a; success := VBool true;
                      renderCount := Some (c + 1) |} (c + 1))
        as (s' & E & Hc); [reflexivity | lia | lia |].
      exists s'. split; [exact E|]. rewrite Hc. f_equal. lia.
    + destruct (dispatched_without_data_count s a c Ha Hs) as (s1 & -> & H1).
      now apply IH.
Qed.

(** From the initial state of index.js: two of four actions count. *)
Lemma renderCount_counts_data_actions_witness :
  exists s',
    currentState
      (dispatch_all reduxApp
         [Action.make (VStr "CHANGE_DATA") (VStr "a");
          Action.make (VStr "OTHER") (VStr "b");
          Action.make (VStr "CHANGE_DATA") VUndefined;
          Action.make (VStr "CHANGE_DATA") (VNum 5)]
         (mkStore (Some initialState)))
    = Some s'
    /\ renderCount s'
       = Some (0 + Z.of_nat
                     (length
                        (filter carries_data
                           [Action.make (VStr "CHANGE_DATA") (VStr "a");
                            Action.make (VStr "OTHER") (VStr "b");
                            Action.make (VStr "CHANGE_DATA") VUndefined;
                            Action.make (VStr "CHANGE_DATA") (VNum 5)]))).
Proof.
  apply (renderCount_counts_data_actions initialState 0).
  - reflexivity.
  - lia.
  - vm_compute. discriminate.
Defined.

(** ** X5: the last payload wins *)

(** X5: on a store that holds a state [s], after any sequence of dispatches
    [data] is the payload of the last CHANGE_DATA action that carried one, or
    the [data] of [s] when there was none; and [success] is [true] when there
    was one, and the [success] of [s] otherwise. *)
Theorem last_payload_wins (s : StateObject) (actions : list Action) :
  is_state s = true ->
  exists s',
    currentState (dispatch_all reduxApp actions (mkStore (Some s))) = Some s'
    /\ data s' = last (map Action.data (filter carries_data actions)) (data s)
    /\ success s'
       = (if existsb carries_data actions then VBool true else success s).
Proof.
  revert s.
  induction actions as [|a actions IH]; intros s Hs.
  - exists s. now repeat split.
  - rewrite dispatch_all_cons. cbn [filter existsb].
    destruct (carries_data a) eqn:Ha.
    + rewrite dispatched_carries_data by exact Ha.
      edestruct IH as (s' & E & Hd & Hsc);
        [apply is_state_after_data; exact Ha|].
      exists s'. cbn [data success] in Hd, Hsc. cbn [map orb].
      rewrite last_cons. repeat split; [exact E | exact Hd |].
      rewrite Hsc. now destruct (existsb carries_data actions).
    + rewrite dispatched_without_data by assumption. cbn [orb].
      now apply IH.
Qed.

(** Two payloads, the second followed by actions that change nothing. *)
Lemma last_payload_wins_witness :
  exists s',
    currentState
      (dispatch_all reduxApp
         [Action.make (VStr "CHANGE_DATA") (VStr "first");
          Action.make (VStr "CHANGE_DATA") (VStr "second");
          Action.make (VStr "CHANGE_DATA") VUndefined;
          Action.make (VStr "OTHER") (VStr "third")]
         (mkStore (Some (mkState (VStr "") (VBool false) (Some 0)))))
    = Some s'
    /\ data s'
       = last (map Action.data
                 (filter carries_data
                    [Action.make (VStr "CHANGE_DATA") (VStr "first");
                     Action.make (VStr "CHANGE_DATA") (VStr "second");
                     Action.make (VStr "CHANGE_DATA") VUndefined;
                     Action.make (VStr "OTHER") (VStr "third")]))
              (VStr "")
    /\ success s'
       = (if existsb carries_data
               [Action.make (VStr "CHANGE_DATA") (VStr "first");
                Action.make (VStr "CHANGE_DATA") (VStr "second");
                Action.make (VStr "CHANGE_DATA") VUndefined;
                Action.make (VStr "OTHER") (VStr "third")]
          then VBool true else VBool false).
Proof.
  apply (last_payload_wins (mkState (VStr "") (VBool false) (Some 0))).
  reflexivity.
Defined.

(** ** X6: the counter stops at [2^53] *)

Lemma reduxApp_count_bounded (c : number) (s : StateObject) (a : Action)
  (s' : StateObject) :
  - 2 ^ 53 <= c ->
  (exists c0, renderCount s = Some c0 /\ c <= c0 <= 2 ^ 53) ->
  reduxApp (Some s) a = Return s' ->
  exists c1, renderCount s' = Some c1 /\ c <= c1 <= 2 ^ 53.
Proof.
  intros Hlo (c0 & E0 & Hc0). rewrite reduxApp_unfold. cbn zeta.
  destruct (is_undefined _); [discriminate|].
  intros [= <-]. cbn [renderCount]. rewrite E0. unfold countReducer.
  destruct (is_CHANGE_DATA a); cbn [pre_increment snd].
  - destruct (Z.eq_dec c0 (2 ^ 53)) as [->|Hne].
    + exists (2 ^ 53). rewrite add_one_at_2_53. split; [reflexivity | lia].
    + exists (c0 + 1). rewrite add_one_exact by lia. split; [reflexivity | lia].
  - exists c0. now split.
Qed.

(** X6: from a count [c] with [-2^53 <= c <= 2^53], no sequence of dispatches
    takes [renderCount] below [c] or above [2^53]; in particular a counter
    that has reached [2^53] stays there, whatever is dispatched. *)
Theorem renderCount_stops_at_2_53 (s : StateObject) (c : number)
  (actions : list Action) :
  renderCount s = Some c ->
  - 2 ^ 53 <= c <= 2 ^ 53 ->
  exists s' c',
    currentState (dispatch_all reduxApp actions (mkStore (Some s))) = Some s'
    /\ renderCount s' = Some c'
    /\ c <= c' <= 2 ^ 53
    /\ (c = 2 ^ 53 -> c' = 2 ^ 53).
Proof.
  intros Hs Hc.
  destruct (dispatch_all_invariant
              (fun s => exists c0, renderCount s = Some c0 /\ c <= c0 <= 2 ^ 53)
              (fun s0 a s1 => reduxApp_count_bounded c s0 a s1 (proj1 Hc))
              actions s)
    as (s' & E & c' & E' & Hb).
  - exists c. split; [exact Hs | lia].
  - exists s', c'. repeat split; try assumption; lia.
Qed.

(** Three more CHANGE_DATA on a counter at [2^53]. *)
Lemma renderCount_stops_at_2_53_witness :
  exists s' c',
    currentState
      (dispatch_all reduxApp
         (repeat (Action.make (VStr "CHANGE_DATA") (VStr "x")) 3)
         (mkStore (Some (mkState (VStr "") (VBool true) (Some (2 ^ 53))))))
    = Some s'
    /\ renderCount s' = Some c'
    /\ 2 ^ 53 <= c' <= 2 ^ 53
    /\ (2 ^ 53 = 2 ^ 53 -> c' = 2 ^ 53).
Proof.
  apply (renderCount_stops_at_2_53
           (mkState (VStr "") (VBool true) (Some (2 ^ 53))) (2 ^ 53)).
  - reflexivity.
  - lia.
Defined.

(** ** X7: clicking the presenter [n] times *)

Lemma click_dispatches (s : StateObject) :
  click (mkStore (Some s))
  = mkStore
      (Some {| data := VStr "the Presenter changed me"; success := VBool true;
               renderCount :=
                 Some (add_one (match renderCount s with
                                | Some n => n | None => 0 end)) |}).
Proof.
  change (click (mkStore (Some s)))
    with (dispatched reduxApp presenter_action (mkStore (Some s))).
  now rewrite dispatched_carries_data.
Qed.

(** X7: on the store of index.js, before any click the connected presenter
    shows the no-data message and the count 0; after [n] clicks on its
    clickable element, for [0 < n <= 2^53], each made on the tree rendered
    from the state the previous one left, the state is [{data: "the Presenter
    changed me", success: true, renderCount: n}] and the presenter shows that
    text and [n]. *)
Theorem clicks_are_counted (suffix : string) (n : nat) :
  (0 < n)%nat ->
  Z.of_nat n <= 2 ^ 53 ->
  exists (store : Store) (s0 : StateObject),
    appStore suffix = Return store
    /\ getState store = Some s0
    /\ span_contents (snd (Container s0 (dispatched reduxApp)))
       = [VStr "We don't have data to show."; VNum 0]
    /\ getState (Nat.iter n click store)
       = Some (mkState (VStr "the Presenter changed me") (VBool true)
                       (Some (Z.of_nat n)))
    /\ span_contents
         (snd (Container
                 (mkState (VStr "the Presenter changed me") (VBool true)
                          (Some (Z.of_nat n)))
                 (dispatched reduxApp)))
       = [VStr "the Presenter changed me"; VNum (Z.of_nat n)].
Proof.
  intros Hpos Hn.
  exists (mkStore (Some (mkState (VStr "") (VBool false) (Some 0)))),
         (mkState (VStr "") (VBool false) (Some 0)).
  repeat split.
  destruct n as [|n]; [lia|]. clear Hpos.
  induction n as [|n IH].
  - reflexivity.
  - change (Nat.iter (S (S n)) click ?x) with (click (Nat.iter (S n) click x)).
    unfold getState in *.
    destruct (Nat.iter (S n) click _) as [st]. cbn [currentState] in IH.
    rewrite IH by lia. rewrite click_dispatches. cbn [currentState renderCount].
    rewrite add_one_exact by lia. do 3 f_equal. lia.
Qed.

(** Three clicks. *)
Lemma clicks_are_counted_witness :
  exists (store : Store) (s0 : StateObject),
    appStore "" = Return store
    /\ getState store = Some s0
    /\ span_contents (snd (Container s0 (dispatched reduxApp)))
       = [VStr "We don't have data to show."; VNum 0]
    /\ getState (Nat.iter 3 click store)
       = Some (mkState (VStr "the Presenter changed me") (VBool true)
                       (Some (Z.of_nat 3)))
    /\ span_contents
         (snd (Container
                 (mkState (VStr "the Presenter changed me") (VBool true)
                          (Some (Z.of_nat 3)))
                 (dispatched reduxApp)))
       = [VStr "the Presenter changed me"; VNum (Z.of_nat 3)].
Proof.
  apply (clicks_are_counted "" 3).
  - apply Nat.lt_0_succ.
  - vm_compute. discriminate.
Defined.

(** ** X8: a store rebuilt from its own state *)

(** X8: take any initial state object, or none, build the store and dispatch
    any sequence of actions; a store built anew by [createStore] from the
    state read with [getState] is that same store: the initial dispatch
    changes nothing in a state the reducers have produced. *)
Theorem store_rebuilt_from_its_state (p : option StateObject)
  (suffix suffix' : string) (actions : list Action) :
  exists store : Store,
    createStore reduxApp p suffix = Return store
    /\ createStore reduxApp
         (getState (dispatch_all reduxApp actions store)) suffix'
       = Return (dispatch_all reduxApp actions store).
Proof.
  destruct (createStore_returns_state p suffix) as (s0 & E0 & H0).
  destruct (dispatch_all_invariant (fun s => is_state s = true)
              (fun s a s' _ H => reduxApp_returns_states (Some s) a s' H)
              actions s0 H0) as (s & E & H).
  exists (mkStore (Some s0)). split; [exact E0|].
  destruct (dispatch_all reduxApp actions (mkStore (Some s0))) as [cs].
  cbn [currentState] in E. subst cs. unfold getState, createStore, dispatch.
  change (is_undefined (Action.type (INIT suffix'))) with false.
  cbn [currentState].
  now rewrite (reduxApp_fixes_states s (INIT suffix') H (INIT_is_unknown suffix')).
Qed.

(** ** X9: [success] and [renderCount] move together *)

Lemma reduxApp_success_with_count (s : StateObject) (a : Action)
  (s' : StateObject) :
  (exists c, renderCount s = Some c
             /\ (success s = VBool false /\ c = 0
                 \/ success s = VBool true /\ 1 <= c <= 2 ^ 53)) ->
  reduxApp (Some s) a = Return s' ->
  exists c', renderCount s' = Some c'
             /\ (success s' = VBool false /\ c' = 0
                 \/ success s' = VBool true /\ 1 <= c' <= 2 ^ 53).
Proof.
  intros (c & Ec & H). rewrite reduxApp_unfold. cbn zeta.
  destruct (is_undefined _); [discriminate|].
  intros [= <-]. cbn [renderCount success]. rewrite Ec.
  unfold successReducer, countReducer.
  destruct (is_CHANGE_DATA a); cbn [pre_increment snd].
  - eexists. split; [reflexivity|]. right. split; [reflexivity|].
    destruct (Z.eq_dec c (2 ^ 53)) as [->|Hne].
    + rewrite add_one_at_2_53. lia.
    + rewrite add_one_exact by lia. lia.
  - exists c. split; [reflexivity|].
    destruct H as [[Hs Hc]|[Hs Hc]]; rewrite Hs; cbn [default_param]; auto.
Qed.

(** X9: in every state the store of index.js can reach by dispatches,
    [success] is [false] exactly while [renderCount] is 0, and [true] with a
    count between 1 and [2^53] afterwards: both reducers answer the same
    action, so the presenter shows the no-data message exactly as long as it
    shows the count 0. *)
Theorem success_goes_with_count (suffix : string) (actions : list Action) :
  exists (store : Store) (s : StateObject) (c : number),
    appStore suffix = Return store
    /\ currentState (dispatch_all reduxApp actions store) = Some s
    /\ renderCount s = Some c
    /\ (success s = VBool false /\ c = 0
        \/ success s = VBool true /\ 1 <= c <= 2 ^ 53)
    /\ span_contents (snd (Container s (dispatched reduxApp)))
       = [(if c =? 0 then VStr "We don't have data to show." else data s);
          VNum c].
Proof.
  destruct (dispatch_all_invariant
              (fun s => exists c, renderCount s = Some c
                 /\ (success s = VBool false /\ c = 0
                     \/ success s = VBool true /\ 1 <= c <= 2 ^ 53))
              reduxApp_success_with_count actions
              (mkState (VStr "") (VBool false) (Some 0)))
    as (s & E & c & Ec & H).
  - exists 0. split; [reflexivity|]. now left.
  - exists (mkStore (Some (mkState (VStr "") (VBool false) (Some 0)))), s, c.
    repeat split; try assumption.
    destruct s as [d sc rc]. cbn [renderCount success data] in *. subst rc.
    destruct H as [[-> ->]|[-> Hc]].
    + reflexivity.
    + destruct (Z.eqb_spec c 0); [lia|]. reflexivity.
Qed.
